(** * Morgan-fingerprint transformer of [1_ml-with-fingerprints.ipynb]

    A shallow embedding of the notebook's two author-written pieces,
    [compute_morgan_fingerprints] and the class
    [MorganFingerprintTransformer] ([__init__], [fit], [transform]),
    together with the parts of Python, numpy and RDKit they run on:

    - Python objects live in a store; a reference is an index into it.
      A transformer instance is its attribute dictionary ([__dict__]),
      a numpy array is a shape and a flat row-major buffer.
    - A call either returns a value or raises an exception; both leave a
      store behind.  The monad [M] threads the store and the exception.
    - RDKit is an interface ([RDKit]): the SMILES parser and the C++
      fingerprint routine are its two operations.  What the notebook relies
      on (the bit vector has [nBits] bits) is the law [RDKitSpec]. *)

From Stdlib Require Import Ascii.
From stdpp Require Import base gmap strings list.

Open Scope string_scope.
Open Scope list_scope.
Open Scope Z_scope.

(** ** Python: exceptions, objects, the store *)

(** An exception is identified by its class; the message is what [str(e)]
    shows. *)
Record exn := Exception { exn_class : string; exn_msg : string }.

Inductive outcome (A : Type) :=
| Raised (e : exn)
| Returned (a : A).
Arguments Raised {A} e.
Arguments Returned {A} a.

(** [numpy.ndarray] with [dtype=bool]: the shape and the buffer in C order. *)
Record ndarray := Ndarray { shape : list nat; data : list bool }.

Inductive obj :=
| Obj_instance (dict : gmap string Z)
| Obj_ndarray (a : ndarray).

(** A reference is a position in the store. *)
Abbreviation loc := nat (only parsing).
Abbreviation heap := (list obj) (only parsing).

Definition M (A : Type) : Type := heap -> outcome A * heap.

Definition ret {A} (a : A) : M A := fun h => (Returned a, h).

Definition raise {A} (e : exn) : M A := fun h => (Raised e, h).

Definition bind {A B} (m : M A) (k : A -> M B) : M B :=
  fun h =>
    match m h with
    | (Raised e, h') => (Raised e, h')
    | (Returned a, h') => k a h'
    end.

Notation "x <- m ;; k" := (bind m (fun x => k))
  (at level 100, m at level 99, k at level 200, right associativity).
Notation "m ;;; k" := (bind m (fun _ => k))
  (at level 100, k at level 200, right associativity).

(** [[f(m) for m in X]]: the elements are visited from left to right and
    the first exception ends the comprehension. *)
Fixpoint list_comprehension {A B} (f : A -> M B) (X : list A) : M (list B) :=
  match X with
  | [] => ret []
  | m :: X' =>
      b <- f m ;;
      bs <- list_comprehension f X' ;;
      ret (b :: bs)
  end.

Definition lift {A} (r : outcome A) : M A :=
  match r with
  | Raised e => raise e
  | Returned a => ret a
  end.

Definition AttributeError (name : string) : exn :=
  Exception "AttributeError" (String.append "object has no attribute " name).

Definition TypeError (msg : string) : exn := Exception "TypeError" msg.

Definition ValueError (msg : string) : exn := Exception "ValueError" msg.

Definition OverflowError (msg : string) : exn := Exception "OverflowError" msg.

(** A new object gets the next free reference. *)
Definition alloc (o : obj) : M loc :=
  fun h => (Returned (List.length h), h ++ [o]).

(** Python has no dangling reference; the model answers one with a
    [SystemError] so that [deref] is total. *)
Definition deref (l : loc) : M obj :=
  fun h =>
    match h !! l with
    | Some o => (Returned o, h)
    | None => (Raised (Exception "SystemError" "dangling reference"), h)
    end.

Definition store (l : loc) (o : obj) : M unit :=
  fun h => (Returned tt, <[l := o]> h).

(** [self.name], for the instance attributes the notebook uses.  An array
    has neither [length] nor [radius]. *)
Definition getattr (self : loc) (name : string) : M Z :=
  o <- deref self ;;
  match o with
  | Obj_instance dict =>
      match dict !! name with
      | Some v => ret v
      | None => raise (AttributeError name)
      end
  | Obj_ndarray _ => raise (AttributeError name)
  end.

(** [self.name = v]; numpy arrays accept no new attribute. *)
Definition setattr (self : loc) (name : string) (v : Z) : M unit :=
  o <- deref self ;;
  match o with
  | Obj_instance dict => store self (Obj_instance (<[name := v]> dict))
  | Obj_ndarray _ => raise (AttributeError name)
  end.

(** ** numpy *)

Module np.

(** [np.zeros(shape, dtype=np.bool_)] *)
Definition zeros (shp : list nat) : M loc :=
  alloc (Obj_ndarray (Ndarray shp (replicate (foldr Nat.mul 1%nat shp) false))).

(** [np.atleast_2d]: a 0-d array becomes [(1, 1)], a 1-d array of [n]
    items becomes [(1, n)], anything else is kept. *)
Definition atleast_2d (a : ndarray) : ndarray :=
  match shape a with
  | [] => Ndarray [1%nat; 1%nat] (data a)
  | [n] => Ndarray [1%nat; n] (data a)
  | _ => a
  end.

(** [np.concatenate(arrs, 0)]: at least one array, every array with the
    dimensions of the first one except along axis 0.  In C order the
    buffer of the result is the buffers one after the other. *)
Definition concatenate (arrs : list ndarray) : outcome ndarray :=
  match arrs with
  | [] => Raised (ValueError "need at least one array to concatenate")
  | a :: rest =>
      match shape a with
      | [] => Raised (ValueError "zero-dimensional arrays cannot be concatenated")
      | _ :: dims =>
          if forallb (fun b => match shape b with
                               | [] => false
                               | _ :: dims' => bool_decide (dims' = dims)
                               end) rest
          then Returned (Ndarray (foldr Nat.add 0%nat (map (fun b => hd 0%nat (shape b)) arrs) :: dims)
                                 (concat (map data arrs)))
          else Raised (ValueError "all the input array dimensions except for the concatenation axis must match exactly")
      end
  end.

(** The model holds boolean arrays only: what numpy would build from
    another kind of object is outside it, and answered by [TypeError]. *)
Definition asarray (l : loc) : M ndarray :=
  o <- deref l ;;
  match o with
  | Obj_ndarray a => ret a
  | Obj_instance _ => raise (TypeError "not an array")
  end.

(** [np.vstack(tup)] passes every array of [tup] through [atleast_2d] and
    concatenates them along axis 0 into a new array. *)
Definition vstack (tup : list loc) : M loc :=
  arrs <- list_comprehension asarray tup ;;
  a <- lift (concatenate (map atleast_2d arrs)) ;;
  alloc (Obj_ndarray a).

(** Row [i] of a two-dimensional array. *)
Definition row (a : ndarray) (i : nat) : list bool :=
  match shape a with
  | [_; n] => take n (drop (i * n) (data a))
  | _ => []
  end.

End np.

(** ** RDKit *)

(** [ExplicitBitVect]: bit [i] is the [i]-th item. *)
Definition ExplicitBitVect := list bool.

(** The two RDKit entry points the notebook calls.  [MolFromSmiles] answers
    [None] for a string it cannot parse.  [getFingerprintAsBitVect mol
    radius nBits] is the C++ routine behind
    [AllChem.GetMorganFingerprintAsBitVect]; it returns the folded bit
    vector or raises. *)
Class RDKit := {
  Mol : Type;
  MolFromSmiles : string -> option Mol;
  getFingerprintAsBitVect : Mol -> Z -> Z -> outcome ExplicitBitVect
}.

(** On success the fingerprint has exactly [nBits] bits. *)
Class RDKitSpec (lib : RDKit) : Prop := {
  getFingerprintAsBitVect_numBits :
    forall mol radius nBits bv,
      getFingerprintAsBitVect mol radius nBits = Returned bv ->
      Z.of_nat (List.length bv) = nBits
}.

Definition ArgumentError : exn :=
  Exception "ArgumentError"
    "Python argument types in rdkit.Chem.rdMolDescriptors.GetMorganFingerprintAsBitVect(NoneType, int, int) did not match C++ signature".

Module AllChem.

(** The Python binding converts its arguments before the C++ routine
    runs: [None] is not a molecule and is refused with Boost.Python's
    [ArgumentError]. *)
Definition GetMorganFingerprintAsBitVect `{RDKit}
    (mol : option Mol) (radius nBits : Z) : outcome ExplicitBitVect :=
  match mol with
  | None => Raised ArgumentError
  | Some mol => getFingerprintAsBitVect mol radius nBits
  end.

End AllChem.

Module DataStructs.

(** [ConvertToNumpyArray(bv, arr)] resizes [arr] in place to the number
    of bits of [bv] and writes the bits into it; it refuses what is not an
    array. *)
Definition ConvertToNumpyArray (bv : ExplicitBitVect) (arr : loc) : M unit :=
  o <- deref arr ;;
  match o with
  | Obj_ndarray _ => store arr (Obj_ndarray (Ndarray [List.length bv] bv))
  | Obj_instance _ => raise (ValueError "Expecting a Numeric array object")
  end.

End DataStructs.

(** ** The notebook *)

Section Notebook.

Context `{lib : RDKit}.

Definition compute_morgan_fingerprints
    (smiles : string) (fingerprint_length fingerprint_radius : Z) : M loc :=
  let molecule := MolFromSmiles smiles in
  fingerprint <- lift (AllChem.GetMorganFingerprintAsBitVect
                         molecule fingerprint_radius fingerprint_length) ;;
  arr <- np.zeros [1%nat] ;;
  DataStructs.ConvertToNumpyArray fingerprint arr ;;;
  ret arr.

End Notebook.

Module MorganFingerprintTransformer.

(** [def __init__(self, length: int = 256, radius: int = 4)]; an argument
    that is left out is [None] here. *)
Definition __init__ (self : loc) (length radius : option Z) : M unit :=
  setattr self "length" (default 256 length) ;;;
  setattr self "radius" (default 4 radius).

(** The class call [MorganFingerprintTransformer(...)]: a new instance
    with an empty [__dict__], then [__init__]. *)
Definition new (length radius : option Z) : M loc :=
  self <- alloc (Obj_instance ∅) ;;
  __init__ self length radius ;;;
  ret self.

Definition fit {A B} (self : loc) (X : A) (y : option B) : M loc :=
  ret self.

Definition transform `{lib : RDKit} (self : loc) (X : list string) : M loc :=
  fing <- list_comprehension
            (fun m =>
               length <- getattr self "length" ;;
               radius <- getattr self "radius" ;;
               compute_morgan_fingerprints m length radius) X ;;
  np.vstack fing.

End MorganFingerprintTransformer.

(** ** The library calls of one [transform]

    What [transform] asks of RDKit, without the store: the bit vectors it
    obtains, element after element, up to the first call that raises, and
    that exception. *)
Fixpoint fingerprints `{lib : RDKit}
    (length radius : Z) (X : list string) : list ExplicitBitVect * option exn :=
  match X with
  | [] => ([], None)
  | m :: X' =>
      match AllChem.GetMorganFingerprintAsBitVect (MolFromSmiles m) radius length with
      | Raised e => ([], Some e)
      | Returned bv =>
          let (bvs, err) := fingerprints length radius X' in (bv :: bvs, err)
      end
  end.

(** The call [compute_morgan_fingerprints] makes for one identifier. *)
Definition fingerprint_of `{lib : RDKit}
    (length radius : Z) (m : string) : outcome ExplicitBitVect :=
  AllChem.GetMorganFingerprintAsBitVect (MolFromSmiles m) radius length.

(** A valid identifier, under a configuration: it decodes and RDKit returns
    its fingerprint. *)
Definition valid `{lib : RDKit} (length radius : Z) (m : string) : Prop :=
  exists bv, fingerprint_of length radius m = Returned bv.

(** The array [compute_morgan_fingerprints] leaves in the store for a bit
    vector. *)
Definition fingerprint_array (bv : ExplicitBitVect) : ndarray :=
  Ndarray [List.length bv] bv.

(** A transformer instance whose [__dict__] holds the given configuration. *)
Definition configured (h : heap) (self : loc) (length radius : Z) : Prop :=
  exists dict,
    h !! self = Some (Obj_instance dict) /\
    dict !! "length" = Some length /\
    dict !! "radius" = Some radius.

(** The array a reference denotes in a store. *)
Definition array_at (h : heap) (l : loc) : option ndarray :=
  match h !! l with
  | Some (Obj_ndarray a) => Some a
  | _ => None
  end.

(** A computation that only adds objects to the store: every object that
    was there is still there, unchanged. *)
Definition preserves {A} (m : M A) : Prop :=
  forall h, exists added, (m h).2 = h ++ added.

(** ** An executable instance of the interface

    Unbranched chains of carbon, nitrogen and oxygen atoms, a fragment of
    SMILES that RDKit accepts as well (the empty string is the molecule
    without atoms).  The fingerprint folds one identifier per atom, its
    character code, into [nBits] bits; a negative [radius] or [nBits] does
    not convert to the routine's unsigned arguments.  It stands in for
    RDKit where the model is run on a concrete batch; the bits are not
    those of the Morgan algorithm. *)
Module Chains.

Definition atom (c : ascii) : bool :=
  bool_decide (c ∈ ["C"; "N"; "O"]%char).

Definition MolFromSmiles (smiles : string) : option (list ascii) :=
  let atoms := String.list_ascii_of_string smiles in
  if forallb atom atoms then Some atoms else None.

Definition bit_of (nBits : Z) (c : ascii) : nat :=
  Z.to_nat (Z.of_N (N_of_ascii c) mod nBits).

Definition getFingerprintAsBitVect
    (mol : list ascii) (radius nBits : Z) : outcome ExplicitBitVect :=
  if bool_decide (radius < 0) || bool_decide (nBits < 0)
  then Raised (OverflowError "can't convert negative value to unsigned int")
  else Returned (map (fun i => existsb (fun c => Nat.eqb (bit_of nBits c) i) mol)
                     (seq 0 (Z.to_nat nBits))).

Definition rdkit : RDKit :=
  Build_RDKit (list ascii) MolFromSmiles getFingerprintAsBitVect.

End Chains.

(** The notebook's [m = MorganFingerprintTransformer(4, 4)] in an empty
    store: [m] is reference 0 of [store_m]. *)
Definition store_m : list obj :=
  (MorganFingerprintTransformer.new (Some 4) (Some 4) []).2.

(** ** Running the model *)

Example compute_methane :
  fst (compute_morgan_fingerprints (lib := Chains.rdkit) "C" 4 4 [])
  = Returned 0%nat.
Proof. reflexivity. Qed.

Example transform_methane :
  let '(_, h) := MorganFingerprintTransformer.new (Some 4) (Some 4) [] in
  let '(r, h') := MorganFingerprintTransformer.transform (lib := Chains.rdkit) 0%nat ["C"] h in
  match r with
  | Returned a => array_at h' a
  | Raised _ => None
  end = Some (Ndarray [1%nat; 4%nat] [false; false; false; true]).
Proof. vm_compute. reflexivity. Qed.

(** ** The store during a call *)

Section Run.

Context {lib : RDKit}.

Lemma configured_app h h' self L R :
  configured h self L R -> configured (h ++ h') self L R.
Proof.
  intros (dict & Hself & HL & HR). exists dict.
  split; [by apply lookup_app_l_Some | done].
Qed.

Lemma getattr_length_run h self L R :
  configured h self L R -> getattr self "length" h = (Returned L, h).
Proof.
  intros (dict & Hself & HL & HR).
  unfold getattr, bind, deref. rewrite Hself. by rewrite HL.
Qed.

Lemma getattr_radius_run h self L R :
  configured h self L R -> getattr self "radius" h = (Returned R, h).
Proof.
  intros (dict & Hself & HL & HR).
  unfold getattr, bind, deref. rewrite Hself. by rewrite HR.
Qed.

(** One element: the library call decides; on success one array is
    added to the store and nothing else changes. *)
Lemma compute_morgan_fingerprints_run smiles L R h :
  compute_morgan_fingerprints smiles L R h =
  match AllChem.GetMorganFingerprintAsBitVect (MolFromSmiles smiles) R L with
  | Raised e => (Raised e, h)
  | Returned bv =>
      (Returned (List.length h), h ++ [Obj_ndarray (fingerprint_array bv)])
  end.
Proof.
  unfold compute_morgan_fingerprints, bind.
  destruct (AllChem.GetMorganFingerprintAsBitVect _ _ _) as [e|bv]; [done|].
  cbn [lift ret]. unfold np.zeros, alloc, DataStructs.ConvertToNumpyArray, bind, deref.
  rewrite list_lookup_middle by done.
  unfold store, ret, fingerprint_array. f_equal.
  rewrite insert_app_r_alt by done.
  by rewrite Nat.sub_diag.
Qed.

Lemma comprehension_run X : forall h self L R,
  configured h self L R ->
  list_comprehension
    (fun m =>
       length <- getattr self "length" ;;
       radius <- getattr self "radius" ;;
       compute_morgan_fingerprints m length radius) X h
  = (match (fingerprints L R X).2 with
     | Some e => Raised e
     | None => Returned (seq (List.length h) (List.length (fingerprints L R X).1))
     end,
     h ++ map (fun bv => Obj_ndarray (fingerprint_array bv)) (fingerprints L R X).1).
Proof.
  induction X as [|m X IH]; intros h self L R Hcfg.
  - cbn. by rewrite app_nil_r.
  - cbn [list_comprehension fingerprints]. unfold bind at 1. unfold bind at 1.
    rewrite (getattr_length_run h self L R Hcfg).
    unfold bind at 1. rewrite (getattr_radius_run h self L R Hcfg).
    rewrite compute_morgan_fingerprints_run.
    destruct (AllChem.GetMorganFingerprintAsBitVect _ _ _) as [e|bv].
    + cbn. by rewrite app_nil_r.
    + unfold bind at 1.
      rewrite (IH _ self L R (configured_app _ _ _ _ _ Hcfg)).
      destruct (fingerprints L R X) as [bvs [e|]]; cbn [fst snd map List.length].
      * by rewrite <- app_assoc.
      * unfold ret. rewrite <- app_assoc. cbn [app seq].
        rewrite length_app. cbn [List.length]. by rewrite Nat.add_1_r.
Qed.

Lemma asarray_run bvs : forall h,
  list_comprehension np.asarray (seq (List.length h) (List.length bvs))
    (h ++ map (fun bv => Obj_ndarray (fingerprint_array bv)) bvs)
  = (Returned (map fingerprint_array bvs),
     h ++ map (fun bv => Obj_ndarray (fingerprint_array bv)) bvs).
Proof.
  induction bvs as [|bv bvs IH]; intros h; [done|].
  cbn [List.length seq map list_comprehension].
  unfold bind at 1. unfold np.asarray at 1, bind at 1, deref.
  rewrite list_lookup_middle by done. cbn [ret].
  unfold bind at 1.
  specialize (IH (h ++ [Obj_ndarray (fingerprint_array bv)])).
  rewrite length_app, Nat.add_1_r, <- app_assoc in IH. cbn [app List.length] in IH.
  by rewrite IH.
Qed.

(** The whole call, as an equation: the arrays of the comprehension are
    added to the store one after the other, then the stacked matrix. *)
Lemma transform_run X h self L R :
  configured h self L R ->
  MorganFingerprintTransformer.transform self X h =
  let h1 := h ++ map (fun bv => Obj_ndarray (fingerprint_array bv))
                     (fingerprints L R X).1 in
  match (fingerprints L R X).2 with
  | Some e => (Raised e, h1)
  | None =>
      match np.concatenate
              (map np.atleast_2d (map fingerprint_array (fingerprints L R X).1)) with
      | Raised e => (Raised e, h1)
      | Returned a => (Returned (List.length h1), h1 ++ [Obj_ndarray a])
      end
  end.
Proof.
  intros Hcfg. unfold MorganFingerprintTransformer.transform, bind at 1.
  rewrite (comprehension_run X h self L R Hcfg).
  destruct (fingerprints L R X) as [bvs [e|]]; cbn [fst snd]; [done|].
  unfold np.vstack, bind at 1. rewrite asarray_run.
  unfold bind.
  by destruct (np.concatenate _) as [e|a].
Qed.

End Run.

(** ** The library calls, element by element *)

Section Fingerprints.

Context {lib : RDKit}.

Lemma fingerprints_numBits `{!RDKitSpec lib} L R X :
  Forall (fun bv => Z.of_nat (List.length bv) = L) (fingerprints L R X).1.
Proof.
  induction X as [|m X IH]; cbn; [constructor|].
  destruct (MolFromSmiles m) as [mol|] eqn:Hm; cbn; [|constructor].
  destruct (getFingerprintAsBitVect mol R L) as [e|bv] eqn:Hbv; [constructor|].
  destruct (fingerprints L R X) as [bvs err]. cbn in *.
  constructor; [|done].
  by eapply getFingerprintAsBitVect_numBits.
Qed.

Lemma fingerprints_cons_returned L R m X bv :
  fingerprint_of L R m = Returned bv ->
  fingerprints L R (m :: X)
  = (bv :: (fingerprints L R X).1, (fingerprints L R X).2).
Proof.
  unfold fingerprint_of. intros Hbv. cbn [fingerprints]. rewrite Hbv.
  by destruct (fingerprints L R X).
Qed.

Lemma fingerprints_cons_raised L R m X e :
  fingerprint_of L R m = Raised e ->
  fingerprints L R (m :: X) = ([], Some e).
Proof. unfold fingerprint_of. intros He. cbn [fingerprints]. by rewrite He. Qed.

(** Every element valid: no call raises, and the vectors come in the
    order of the elements. *)
Lemma fingerprints_valid L R X :
  Forall (valid L R) X ->
  (fingerprints L R X).2 = None /\
  List.length (fingerprints L R X).1 = List.length X /\
  forall i m, X !! i = Some m ->
    exists bv, fingerprint_of L R m = Returned bv /\
               (fingerprints L R X).1 !! i = Some bv.
Proof.
  induction 1 as [|m X [bv Hbv] _ (IH1 & IH2 & IH3)]; [done|].
  rewrite (fingerprints_cons_returned _ _ _ _ _ Hbv). cbn [fst snd List.length].
  repeat split; [done | by rewrite IH2 |].
  intros [|i] m'; cbn.
  - intros [= <-]. eauto.
  - apply IH3.
Qed.

(** An exception of the comprehension is the exception of the first call
    that raises. *)
Lemma fingerprints_raised L R X e :
  (fingerprints L R X).2 = Some e ->
  exists pre m post,
    X = pre ++ m :: post /\ Forall (valid L R) pre /\
    fingerprint_of L R m = Raised e.
Proof.
  induction X as [|m X IH]; [done|].
  destruct (fingerprint_of L R m) as [e'|bv] eqn:Hm.
  - rewrite (fingerprints_cons_raised _ _ _ _ _ Hm). intros [= <-].
    by exists [], m, X.
  - rewrite (fingerprints_cons_returned _ _ _ _ _ Hm). cbn [snd].
    intros (pre & m' & post & -> & Hpre & Hm')%IH.
    exists (m :: pre), m', post. repeat split; [|done].
    constructor; [by exists bv | done].
Qed.

Lemma fingerprints_first_raise L R pre m post e :
  Forall (valid L R) pre ->
  fingerprint_of L R m = Raised e ->
  (fingerprints L R (pre ++ m :: post)).2 = Some e.
Proof.
  intros Hpre Hm. induction Hpre as [|m' pre [bv Hbv] _ IH]; cbn [app].
  - by rewrite (fingerprints_cons_raised _ _ _ _ _ Hm).
  - by rewrite (fingerprints_cons_returned _ _ _ _ _ Hbv).
Qed.

Lemma fingerprint_of_malformed L R m :
  MolFromSmiles m = None -> fingerprint_of L R m = Raised ArgumentError.
Proof. unfold fingerprint_of. by intros ->. Qed.

(** A batch with an identifier that does not decode: some call raises. *)
Lemma fingerprints_malformed L R X m :
  m ∈ X -> MolFromSmiles m = None ->
  exists e, (fingerprints L R X).2 = Some e.
Proof.
  intros Hin Hm. induction Hin as [m X|m m' X _ IH].
  - rewrite (fingerprints_cons_raised _ _ _ _ _ (fingerprint_of_malformed L R m Hm)).
    eauto.
  - destruct (fingerprint_of L R m') as [e'|bv] eqn:Hm'.
    + rewrite (fingerprints_cons_raised _ _ _ _ _ Hm'). eauto.
    + rewrite (fingerprints_cons_returned _ _ _ _ _ Hm'). by apply IH.
Qed.

End Fingerprints.

(** ** Stacking rows of one length *)

Lemma concatenate_rows n bvs :
  bvs ≠ [] ->
  Forall (fun bv : ExplicitBitVect => List.length bv = n) bvs ->
  np.concatenate (map np.atleast_2d (map fingerprint_array bvs))
  = Returned (Ndarray [List.length bvs; n] (concat bvs)).
Proof.
  destruct bvs as [|bv bvs]; [done|]. intros _ Hlen.
  apply Forall_cons in Hlen as [Hbv Hlen].
  cbn [map np.concatenate np.atleast_2d fingerprint_array shape].
  assert (forallb
            (fun b => match shape b with
                      | [] => false
                      | _ :: dims' => bool_decide (dims' = [List.length bv])
                      end)
            (map np.atleast_2d (map fingerprint_array bvs)) = true) as ->.
  { induction Hlen as [|b bvs Hb _ IH]; [done|].
    cbn. rewrite IH, Hb, Hbv. by rewrite bool_decide_true. }
  f_equal. f_equal.
  - rewrite Hbv. f_equal. cbn. f_equal.
    clear. induction bvs as [|b bvs IH]; [done|]. cbn. by rewrite IH.
  - cbn. f_equal. clear. induction bvs as [|b bvs IH]; [done|]. cbn. by rewrite IH.
Qed.

Lemma row_concat N n bvs :
  Forall (fun bv : ExplicitBitVect => List.length bv = n) bvs ->
  forall i bv, bvs !! i = Some bv ->
    np.row (Ndarray [N; n] (concat bvs)) i = bv.
Proof.
  unfold np.row. cbn [shape data].
  induction 1 as [|b bvs Hb _ IH]; intros i bv; [done|].
  destruct i as [|i]; cbn [concat].
  - intros [= <-]. rewrite Nat.mul_0_l, drop_0. by rewrite take_app_length'.
  - intros Hi. replace (S i * n)%nat with (n + i * n)%nat by lia.
    rewrite drop_app_add' by done. by apply IH.
Qed.

Lemma length_concat_rows n (bvs : list ExplicitBitVect) :
  Forall (fun bv => List.length bv = n) bvs ->
  List.length (concat bvs) = (List.length bvs * n)%nat.
Proof.
  induction 1 as [|b bvs Hb _ IH]; [done|].
  cbn. rewrite length_app, IH, Hb. done.
Qed.

(** ** Computations that only allocate *)

Create HintDb preserves.

Lemma preserves_ret {A} (a : A) : preserves (ret a).
Proof. intros h. exists []. by rewrite app_nil_r. Qed.

Lemma preserves_raise {A} e : preserves (@raise A e).
Proof. intros h. exists []. by rewrite app_nil_r. Qed.

Lemma preserves_bind {A B} (m : M A) (k : A -> M B) :
  preserves m -> (forall a, preserves (k a)) -> preserves (bind m k).
Proof.
  intros Hm Hk h. unfold bind. destruct (Hm h) as [added1 H1].
  destruct (m h) as [[e|a] h1]; cbn in H1; subst h1; [by exists added1|].
  destruct (Hk a (h ++ added1)) as [added2 H2].
  exists (added1 ++ added2). by rewrite H2, app_assoc.
Qed.

Lemma preserves_lift {A} (r : outcome A) : preserves (lift r).
Proof. destruct r; [apply preserves_raise | apply preserves_ret]. Qed.

Lemma preserves_alloc o : preserves (alloc o).
Proof. intros h. by exists [o]. Qed.

Lemma preserves_deref l : preserves (deref l).
Proof.
  intros h. exists []. unfold deref. rewrite app_nil_r. by destruct (h !! l).
Qed.

#[local] Hint Resolve preserves_ret preserves_raise preserves_bind
  preserves_lift preserves_alloc preserves_deref : preserves.

Lemma preserves_list_comprehension {A B} (f : A -> M B) X :
  (forall m, preserves (f m)) -> preserves (list_comprehension f X).
Proof. intros Hf. induction X; cbn [list_comprehension]; auto with preserves. Qed.

Lemma preserves_getattr self name : preserves (getattr self name).
Proof.
  unfold getattr. apply preserves_bind; [auto with preserves|].
  intros [dict|a]; [destruct (dict !! name)|]; auto with preserves.
Qed.

Lemma preserves_asarray l : preserves (np.asarray l).
Proof.
  unfold np.asarray. apply preserves_bind; [auto with preserves|].
  intros [dict|a]; auto with preserves.
Qed.

Lemma preserves_compute_morgan_fingerprints `{lib : RDKit} smiles L R :
  preserves (compute_morgan_fingerprints smiles L R).
Proof.
  intros h. rewrite compute_morgan_fingerprints_run.
  destruct (AllChem.GetMorganFingerprintAsBitVect _ _ _); cbn; [|eauto].
  exists []. by rewrite app_nil_r.
Qed.

#[local] Hint Resolve preserves_list_comprehension preserves_getattr
  preserves_asarray preserves_compute_morgan_fingerprints : preserves.

Lemma preserves_vstack tup : preserves (np.vstack tup).
Proof. unfold np.vstack. auto 6 with preserves. Qed.

Lemma preserves_transform `{lib : RDKit} self X :
  preserves (MorganFingerprintTransformer.transform self X).
Proof.
  unfold MorganFingerprintTransformer.transform.
  apply preserves_bind; [|intros; apply preserves_vstack].
  apply preserves_list_comprehension. auto 6 with preserves.
Qed.

Lemma preserves_lookup {A} (m : M A) h l o :
  preserves m -> h !! l = Some o -> (m h).2 !! l = Some o.
Proof. intros Hm Hl. destruct (Hm h) as [added ->]. by apply lookup_app_l_Some. Qed.

(** ** Construction and attribute assignment *)

Lemma new_run length radius h :
  MorganFingerprintTransformer.new length radius h
  = (Returned (List.length h),
     h ++ [Obj_instance (<["radius" := default 4 radius]>
                           (<["length" := default 256 length]> ∅))]).
Proof.
  unfold MorganFingerprintTransformer.new, MorganFingerprintTransformer.__init__.
  unfold alloc, setattr, bind, deref, store, ret.
  rewrite list_lookup_middle by done.
  rewrite insert_app_r_alt by done. rewrite Nat.sub_diag. cbn [insert list_insert].
  rewrite list_lookup_middle by done.
  rewrite insert_app_r_alt by done. by rewrite Nat.sub_diag.
Qed.

Lemma configured_new h L R :
  configured (h ++ [Obj_instance (<["radius" := R]> (<["length" := L]> ∅))])
             (List.length h) L R.
Proof.
  eexists. split; [by apply list_lookup_middle|]. split.
  - rewrite lookup_insert_ne by done. by rewrite lookup_insert_eq.
  - by rewrite lookup_insert_eq.
Qed.

Lemma array_at_app h added l A :
  array_at h l = Some A -> array_at (h ++ added) l = Some A.
Proof.
  unfold array_at. destruct (h !! l) as [o|] eqn:Hl; [|done].
  by rewrite (lookup_app_l_Some _ _ _ _ Hl).
Qed.

Lemma array_at_alloc h A :
  array_at (h ++ [Obj_ndarray A]) (List.length h) = Some A.
Proof. unfold array_at. by rewrite list_lookup_middle. Qed.

(** [self.length = L2] on a configured instance: the instance gets the new
    length, keeps its radius, and no other object changes. *)
Lemma setattr_length_run h self L R L2 h' :
  configured h self L R ->
  setattr self "length" L2 h = (Returned tt, h') ->
  configured h' self L2 R /\
  forall l A, array_at h l = Some A -> array_at h' l = Some A.
Proof.
  intros (dict & Hself & HL & HR). unfold setattr, bind, deref, store.
  rewrite Hself. intros [= <-]. split.
  - exists (<["length" := L2]> dict). split; [|split].
    + apply list_lookup_insert_eq. by eapply lookup_lt_Some.
    + by rewrite lookup_insert_eq.
    + by rewrite lookup_insert_ne.
  - intros l A. unfold array_at. destruct (decide (l = self)) as [->|Hne].
    + by rewrite Hself.
    + by rewrite list_lookup_insert_ne.
Qed.

(** ** What a call returns *)

Section Returns.

Context {lib : RDKit} {spec : RDKitSpec lib}.

Lemma fingerprints_rows L R X :
  Forall (fun bv : ExplicitBitVect => List.length bv = Z.to_nat L)
         (fingerprints L R X).1.
Proof.
  eapply Forall_impl; [apply fingerprints_numBits|].
  intros bv <-. by rewrite Nat2Z.id.
Qed.

Lemma fingerprints_none_valid L R X :
  (fingerprints L R X).2 = None -> Forall (valid L R) X.
Proof.
  induction X as [|m X IH]; [constructor|].
  destruct (fingerprint_of L R m) as [e|bv] eqn:Hm.
  - by rewrite (fingerprints_cons_raised _ _ _ _ _ Hm).
  - rewrite (fingerprints_cons_returned _ _ _ _ _ Hm). cbn [snd].
    constructor; [by exists bv | auto].
Qed.

(** A batch of valid identifiers that is not empty: the call returns a
    new array, the stacked fingerprints. *)
Lemma transform_valid X h self L R :
  configured h self L R -> X ≠ [] -> Forall (valid L R) X ->
  exists a h',
    MorganFingerprintTransformer.transform self X h = (Returned a, h') /\
    array_at h' a
    = Some (Ndarray [List.length X; Z.to_nat L] (concat (fingerprints L R X).1)).
Proof.
  intros Hcfg HX Hvalid.
  destruct (fingerprints_valid L R X Hvalid) as (Herr & Hlen & _).
  rewrite (transform_run X h self L R Hcfg). cbn zeta. rewrite Herr.
  rewrite (concatenate_rows (Z.to_nat L)); [| |apply fingerprints_rows].
  - rewrite Hlen. eexists _, _. split; [done|]. apply array_at_alloc.
  - intros Hnil. rewrite Hnil in Hlen. by destruct X.
Qed.

(** Conversely, an array is returned only then. *)
Lemma transform_returned X h self L R a h' :
  configured h self L R ->
  MorganFingerprintTransformer.transform self X h = (Returned a, h') ->
  X ≠ [] /\ Forall (valid L R) X /\
  array_at h' a
  = Some (Ndarray [List.length X; Z.to_nat L] (concat (fingerprints L R X).1)).
Proof.
  intros Hcfg Hrun.
  assert (Forall (valid L R) X) as Hvalid.
  { apply fingerprints_none_valid.
    rewrite (transform_run X h self L R Hcfg) in Hrun. cbn zeta in Hrun.
    by destruct ((fingerprints L R X).2). }
  assert (X ≠ []) as HX.
  { intros ->. by rewrite (transform_run [] h self L R Hcfg) in Hrun. }
  destruct (transform_valid X h self L R Hcfg HX Hvalid) as (a' & h'' & Hrun' & Ha).
  rewrite Hrun in Hrun'. by simplify_eq.
Qed.

End Returns.

Lemma Chains_spec : RDKitSpec Chains.rdkit.
Proof.
  constructor. intros mol radius nBits bv. cbn.
  unfold Chains.getFingerprintAsBitVect.
  destruct (bool_decide (radius < 0)); [done|].
  case_bool_decide as HnBits; [done|]. cbn. intros [= <-].
  rewrite length_map, length_seq. lia.
Qed.

(** ** Properties of the transformer *)

(** On a concrete store the configuration is read off by evaluation. *)
Ltac read_configuration :=
  eexists; split; [reflexivity | split; vm_compute; reflexivity].

(** C5. [fit] returns the reference it was given and leaves the store as it
    was: the same instance, the same configuration, nothing learned.  The
    batch [X] is not looked at, so the call returns for every [X], of any
    type, iterable or not. *)
Theorem fit_returns_self {A B} (self : loc) (X : A) (y : option B) (h : heap) :
  MorganFingerprintTransformer.fit self X y h = (Returned self, h) /\
  (forall L R, configured h self L R ->
               configured (MorganFingerprintTransformer.fit self X y h).2 self L R).
Proof. split; [reflexivity | by intros L R Hcfg]. Qed.

(** C10. [MorganFingerprintTransformer()] returns a new instance whose
    attributes are [length = 256] and [radius = 4]. *)
Theorem new_default_configuration (h : heap) :
  MorganFingerprintTransformer.new None None h
  = (Returned (List.length h),
     h ++ [Obj_instance (<["radius" := 4]> (<["length" := 256]> ∅))]) /\
  configured (MorganFingerprintTransformer.new None None h).2 (List.length h) 256 4.
Proof.
  rewrite new_run. split; [done|]. apply configured_new.
Qed.

(** C9. On an empty batch [transform] raises numpy's [ValueError]: the
    comprehension yields no array and there is nothing to stack.  No matrix
    is returned, and the store is as before.  The transformer's attributes
    are not even read. *)
Theorem transform_empty_raises `{lib : RDKit} (h : heap) (self : loc) :
  MorganFingerprintTransformer.transform self [] h
  = (Raised (ValueError "need at least one array to concatenate"), h).
Proof.
  unfold MorganFingerprintTransformer.transform, np.vstack.
  cbn [list_comprehension]. reflexivity.
Qed.

(** C1, as the code has it.  A batch with an identifier that does not
    decode makes [transform] raise; no matrix is returned, whole or partial.
    When the elements before the first such identifier are valid, the
    exception is Boost.Python's [ArgumentError] for the [None] molecule: the
    same exception whatever the identifier and wherever it stands. *)
Theorem transform_malformed_raises `{lib : RDKit}
    (h : heap) (self : loc) (L R : Z) (pre : list string) (m : string)
    (post : list string) :
  configured h self L R ->
  MolFromSmiles m = None ->
  (exists e h',
     MorganFingerprintTransformer.transform self (pre ++ m :: post) h
     = (Raised e, h')) /\
  (Forall (valid L R) pre ->
   exists h',
     MorganFingerprintTransformer.transform self (pre ++ m :: post) h
     = (Raised ArgumentError, h')).
Proof.
  intros Hcfg Hm. rewrite (transform_run _ h self L R Hcfg). cbn zeta. split.
  - destruct (fingerprints_malformed L R (pre ++ m :: post) m) as [e ->]; [|done|eauto].
    apply elem_of_app. right. constructor.
  - intros Hpre.
    rewrite (fingerprints_first_raise L R pre m post ArgumentError Hpre
               (fingerprint_of_malformed L R m Hm)).
    eauto.
Qed.

Lemma transform_malformed_raises_witness :
  configured store_m 0%nat 4 4 /\
  MolFromSmiles (RDKit := Chains.rdkit) "not-a-valid-identifier" = None /\
  (exists e h',
     MorganFingerprintTransformer.transform (lib := Chains.rdkit) 0%nat
       (["C"] ++ "not-a-valid-identifier" :: []) store_m
     = (Raised e, h')) /\
  (Forall (valid (lib := Chains.rdkit) 4 4) ["C"] ->
   exists h',
     MorganFingerprintTransformer.transform (lib := Chains.rdkit) 0%nat
       (["C"] ++ "not-a-valid-identifier" :: []) store_m
     = (Raised ArgumentError, h')).
Proof.
  split; [read_configuration|]. split; [reflexivity|].
  apply (transform_malformed_raises (lib := Chains.rdkit) store_m 0%nat 4 4
           ["C"] "not-a-valid-identifier" []).
  - read_configuration.
  - reflexivity.
Defined.

(** C1 as stated fails: for [["C", "not-a-valid-identifier"]] the exception
    is not a [DecodeError], and it is the very exception raised for
    [["not-a-valid-identifier"]], so it tells no position. *)
Lemma transform_malformed_no_DecodeError :
  ~ (exists e h',
       MorganFingerprintTransformer.transform (lib := Chains.rdkit) 0%nat
         ["C"; "not-a-valid-identifier"] store_m = (Raised e, h') /\
       exn_class e = "DecodeError") /\
  (MorganFingerprintTransformer.transform (lib := Chains.rdkit) 0%nat
     ["C"; "not-a-valid-identifier"] store_m).1
  = (MorganFingerprintTransformer.transform (lib := Chains.rdkit) 0%nat
       ["not-a-valid-identifier"] store_m).1.
Proof.
  split; [|vm_compute; reflexivity].
  intros (e & h' & Hrun & Hclass). vm_compute in Hrun.
  injection Hrun as <- _. discriminate Hclass.
Qed.

(** C2, as the code has it.  For a batch of [N] valid identifiers that is
    not empty, [transform] returns a new array of shape [(N, L)], [L] the
    configured length, whose buffer holds [N * L] items. *)
Theorem transform_shape `{lib : RDKit} {spec : RDKitSpec lib}
    (h : heap) (self : loc) (L R : Z) (X : list string) :
  configured h self L R ->
  X ≠ [] ->
  Forall (valid L R) X ->
  exists a h' A,
    MorganFingerprintTransformer.transform self X h = (Returned a, h') /\
    array_at h' a = Some A /\
    shape A = [List.length X; Z.to_nat L] /\
    List.length (data A) = (List.length X * Z.to_nat L)%nat /\
    0 <= L.
Proof.
  intros Hcfg HX Hvalid.
  destruct (transform_valid X h self L R Hcfg HX Hvalid) as (a & h' & Hrun & Ha).
  eexists a, h', _. split; [done|]. split; [exact Ha|].
  cbn [shape data]. split; [done|]. split.
  -  rewrite (length_concat_rows (Z.to_nat L)) by apply fingerprints_rows.
    by destruct (fingerprints_valid L R X Hvalid) as (_ & -> & _).
  - destruct X as [|m X]; [done|]. apply Forall_cons in Hvalid as [[bv Hbv] _].
    unfold fingerprint_of, AllChem.GetMorganFingerprintAsBitVect in Hbv.
    destruct (MolFromSmiles m) as [mol|]; [|done].
    apply getFingerprintAsBitVect_numBits in Hbv. lia.
Qed.

Lemma transform_shape_witness :
  configured store_m 0%nat 4 4 /\
  ["C"; "CO"; "N"] ≠ [] /\
  Forall (valid (lib := Chains.rdkit) 4 4) ["C"; "CO"; "N"] /\
  exists a h' A,
    MorganFingerprintTransformer.transform (lib := Chains.rdkit) 0%nat
      ["C"; "CO"; "N"] store_m = (Returned a, h') /\
    array_at h' a = Some A /\
    shape A = [List.length ["C"; "CO"; "N"]; Z.to_nat 4] /\
    List.length (data A) = (List.length ["C"; "CO"; "N"] * Z.to_nat 4)%nat /\
    0 <= 4.
Proof.
  assert (Forall (valid (lib := Chains.rdkit) 4 4) ["C"; "CO"; "N"]) as Hvalid.
  { repeat constructor; eexists; vm_compute; reflexivity. }
  split; [read_configuration|]. split; [discriminate|]. split; [exact Hvalid|].
  apply (transform_shape (lib := Chains.rdkit) (spec := Chains_spec) store_m 0%nat 4 4
           ["C"; "CO"; "N"]).
  - read_configuration.
  - discriminate.
  - exact Hvalid.
Defined.

(** C2 as stated fails for [N = 0]: the empty batch gives no array of
    shape [(0, 4)]. *)
Lemma transform_empty_no_matrix :
  ~ (exists a h' A,
       MorganFingerprintTransformer.transform (lib := Chains.rdkit) 0%nat [] store_m
       = (Returned a, h') /\
       array_at h' a = Some A /\
       shape A = [0%nat; 4%nat]).
Proof.
  intros (a & h' & A & Hrun & _). vm_compute in Hrun. discriminate Hrun.
Qed.

(** The outcome of a call does not depend on the calls made before it: run
    again in the store the first call left, [transform] raises the same
    exception or returns an array with the same contents. *)
Lemma transform_again `{lib : RDKit} h self L R X r1 h1 r2 h2 :
  configured h self L R ->
  MorganFingerprintTransformer.transform self X h = (r1, h1) ->
  MorganFingerprintTransformer.transform self X h1 = (r2, h2) ->
  match r1, r2 with
  | Raised e1, Raised e2 => e1 = e2
  | Returned a1, Returned a2 =>
      exists A, array_at h1 a1 = Some A /\ array_at h2 a2 = Some A /\
                array_at h2 a1 = Some A
  | _, _ => False
  end.
Proof.
  intros Hcfg Hrun1 Hrun2.
  assert (configured h1 self L R) as Hcfg1.
  { destruct (preserves_transform self X h) as [added Hadd].
    rewrite Hrun1 in Hadd. cbn in Hadd. subst h1. by apply configured_app. }
  rewrite (transform_run X h self L R Hcfg) in Hrun1.
  rewrite (transform_run X h1 self L R Hcfg1) in Hrun2.
  cbn zeta in Hrun1, Hrun2.
  destruct ((fingerprints L R X).2) as [e|].
  { by simplify_eq. }
  destruct (np.concatenate _) as [e|A].
  { by simplify_eq. }
  simplify_eq. exists A. split; [apply array_at_alloc|].
  split; [apply array_at_alloc|].
  do 2 apply array_at_app. apply array_at_alloc.
Qed.

(** One valid identifier, converted twice: both calls return the
    one-row matrix of its fingerprint. *)
Lemma transform_singleton_twice `{lib : RDKit} h self L R m bv :
  configured h self L R ->
  fingerprint_of L R m = Returned bv ->
  exists a1 h1 a2 h2,
    MorganFingerprintTransformer.transform self [m] h = (Returned a1, h1) /\
    MorganFingerprintTransformer.transform self [m] h1 = (Returned a2, h2) /\
    array_at h1 a1 = Some (Ndarray [1%nat; List.length bv] bv) /\
    array_at h2 a2 = Some (Ndarray [1%nat; List.length bv] bv) /\
    array_at h2 a1 = Some (Ndarray [1%nat; List.length bv] bv).
Proof.
  intros Hcfg Hbv.
  destruct (MorganFingerprintTransformer.transform self [m] h) as [r1 h1] eqn:Hrun1.
  destruct (MorganFingerprintTransformer.transform self [m] h1) as [r2 h2] eqn:Hrun2.
  pose proof (transform_again h self L R [m] r1 h1 r2 h2 Hcfg Hrun1 Hrun2) as Hsame.
  rewrite (transform_run [m] h self L R Hcfg) in Hrun1.
  rewrite (fingerprints_cons_returned L R m [] bv Hbv) in Hrun1.
  cbn in Hrun1. rewrite app_nil_r in Hrun1. injection Hrun1 as <- <-.
  destruct r2 as [e2|a2]; [done|].
  destruct Hsame as (A & H1 & H2 & H3).
  rewrite array_at_alloc in H1. injection H1 as <-.
  eexists _, _, a2, h2. split; [reflexivity|]. split; [exact Hrun2|].
  split; [apply array_at_alloc | done].
Qed.

(** C3. For a valid identifier [m], [transform] called twice on the same
    instance with [[m]] returns both times, and the two arrays have the same
    shape and the same bits; the first array is still what it was after the
    second call. *)
Theorem transform_deterministic `{lib : RDKit}
    (h : heap) (self : loc) (L R : Z) (m : string) :
  configured h self L R ->
  valid L R m ->
  exists a1 h1 a2 h2 A,
    MorganFingerprintTransformer.transform self [m] h = (Returned a1, h1) /\
    MorganFingerprintTransformer.transform self [m] h1 = (Returned a2, h2) /\
    array_at h1 a1 = Some A /\
    array_at h2 a2 = Some A /\
    array_at h2 a1 = Some A.
Proof.
  intros Hcfg [bv Hbv].
  destruct (transform_singleton_twice h self L R m bv Hcfg Hbv)
    as (a1 & h1 & a2 & h2 & H1 & H2 & H3 & H4 & H5).
  by eexists a1, h1, a2, h2, _.
Qed.

Lemma transform_deterministic_witness :
  configured store_m 0%nat 4 4 /\
  valid (lib := Chains.rdkit) 4 4 "C" /\
  exists a1 h1 a2 h2 A,
    MorganFingerprintTransformer.transform (lib := Chains.rdkit) 0%nat ["C"] store_m
    = (Returned a1, h1) /\
    MorganFingerprintTransformer.transform (lib := Chains.rdkit) 0%nat ["C"] h1
    = (Returned a2, h2) /\
    array_at h1 a1 = Some A /\
    array_at h2 a2 = Some A /\
    array_at h2 a1 = Some A.
Proof.
  split; [read_configuration|].
  split; [eexists; vm_compute; reflexivity|].
  apply (transform_deterministic (lib := Chains.rdkit) store_m 0%nat 4 4 "C").
  - read_configuration.
  - eexists; vm_compute; reflexivity.
Defined.

(** C4. For a batch of valid identifiers, row [i] of the returned matrix
    holds the bits of the vector that [compute_morgan_fingerprints] returns
    for the [i]-th element under the same configuration. *)
Theorem transform_rows `{lib : RDKit} {spec : RDKitSpec lib}
    (h : heap) (self : loc) (L R : Z) (X : list string) (i : nat) (m : string) :
  configured h self L R ->
  Forall (valid L R) X ->
  X !! i = Some m ->
  exists a h' A l hl,
    MorganFingerprintTransformer.transform self X h = (Returned a, h') /\
    array_at h' a = Some A /\
    compute_morgan_fingerprints m L R h = (Returned l, hl) /\
    array_at hl l = Some (Ndarray [Z.to_nat L] (np.row A i)).
Proof.
  intros Hcfg Hvalid Hi.
  assert (X ≠ []) as HX by (by intros ->).
  destruct (transform_valid X h self L R Hcfg HX Hvalid) as (a & h' & Hrun & Ha).
  destruct (fingerprints_valid L R X Hvalid) as (_ & _ & Hrows).
  destruct (Hrows i m Hi) as (bv & Hbv & Hrow).
  pose proof (fingerprints_rows L R X) as Hlen.
  eexists a, h', _, _, _. split; [done|]. split; [exact Ha|].
  rewrite compute_morgan_fingerprints_run. unfold fingerprint_of in Hbv.
  rewrite Hbv. split; [done|]. rewrite array_at_alloc. unfold fingerprint_array.
  rewrite (row_concat _ _ _ Hlen i bv Hrow).
  by rewrite (proj1 (Forall_lookup _ _) Hlen i bv Hrow).
Qed.

Lemma transform_rows_witness :
  configured store_m 0%nat 4 4 /\
  Forall (valid (lib := Chains.rdkit) 4 4) ["C"; "CO"; "N"] /\
  ["C"; "CO"; "N"] !! 1%nat = Some "CO" /\
  exists a h' A l hl,
    MorganFingerprintTransformer.transform (lib := Chains.rdkit) 0%nat
      ["C"; "CO"; "N"] store_m = (Returned a, h') /\
    array_at h' a = Some A /\
    compute_morgan_fingerprints (lib := Chains.rdkit) "CO" 4 4 store_m
    = (Returned l, hl) /\
    array_at hl l = Some (Ndarray [Z.to_nat 4] (np.row A 1)).
Proof.
  assert (Forall (valid (lib := Chains.rdkit) 4 4) ["C"; "CO"; "N"]) as Hvalid.
  { repeat constructor; eexists; vm_compute; reflexivity. }
  split; [read_configuration|]. split; [exact Hvalid|].
  split; [reflexivity|].
  apply (transform_rows (lib := Chains.rdkit) (spec := Chains_spec) store_m 0%nat 4 4
           ["C"; "CO"; "N"] 1%nat "CO").
  - read_configuration.
  - exact Hvalid.
  - reflexivity.
Defined.

(** C6, as the code has it.  Neither [__init__] nor [transform] checks the
    configuration.  Construction returns for every [length] and [radius],
    whatever their sign, and stores them as given.  [transform] hands them to
    the fingerprint call of each element: an exception of [transform] is the
    exception of such a call or, for an empty batch, numpy's [ValueError];
    and when every call returns, on a batch that is not empty, [transform]
    returns. *)
Theorem transform_no_configuration_check `{lib : RDKit} {spec : RDKitSpec lib}
    (L R : Z) (h0 : heap) :
  exists h,
    MorganFingerprintTransformer.new (Some L) (Some R) h0
    = (Returned (List.length h0), h) /\
    configured h (List.length h0) L R /\
    (forall X e h',
       MorganFingerprintTransformer.transform (List.length h0) X h = (Raised e, h') ->
       (X = [] /\ e = ValueError "need at least one array to concatenate") \/
       (exists m, m ∈ X /\ fingerprint_of L R m = Raised e)) /\
    (forall X,
       X ≠ [] -> Forall (valid L R) X ->
       exists a h',
         MorganFingerprintTransformer.transform (List.length h0) X h = (Returned a, h')).
Proof.
  exists (h0 ++ [Obj_instance (<["radius" := R]> (<["length" := L]> ∅))]).
  split; [apply new_run|].
  pose proof (configured_new h0 L R) as Hcfg. split; [exact Hcfg|]. split.
  - intros X e h' Hrun.
    destruct ((fingerprints L R X).2) as [e'|] eqn:Herr.
    + right. rewrite (transform_run X _ _ L R Hcfg) in Hrun. cbn zeta in Hrun.
      rewrite Herr in Hrun. injection Hrun as <- _.
      destruct (fingerprints_raised L R X e' Herr) as (pre & m & post & -> & _ & Hm).
      exists m. split; [|done]. apply elem_of_app. right. constructor.
    + left. destruct X as [|m X].
      * split; [done|]. cbn in Hrun. by injection Hrun as <- _.
      * apply fingerprints_none_valid in Herr.
        destruct (transform_valid (m :: X) _ _ L R Hcfg) as (a & h'' & Hret & _);
          [done..|].
        rewrite Hrun in Hret. discriminate Hret.
  - intros X HX Hvalid.
    destruct (transform_valid X _ _ L R Hcfg HX Hvalid) as (a & h' & Hret & _).
    eauto.
Qed.

Lemma transform_no_configuration_check_witness :
  exists h,
    MorganFingerprintTransformer.new (Some 0) (Some (-1)) []
    = (Returned (List.length (@nil obj)), h) /\
    configured h (List.length (@nil obj)) 0 (-1) /\
    (forall X e h',
       MorganFingerprintTransformer.transform (lib := Chains.rdkit)
         (List.length (@nil obj)) X h = (Raised e, h') ->
       (X = [] /\ e = ValueError "need at least one array to concatenate") \/
       (exists m, m ∈ X /\ fingerprint_of (lib := Chains.rdkit) 0 (-1) m = Raised e)) /\
    (forall X,
       X ≠ [] -> Forall (valid (lib := Chains.rdkit) 0 (-1)) X ->
       exists a h',
         MorganFingerprintTransformer.transform (lib := Chains.rdkit)
           (List.length (@nil obj)) X h = (Returned a, h')).
Proof.
  apply (transform_no_configuration_check (lib := Chains.rdkit) (spec := Chains_spec)
           0 (-1) []).
Defined.

(** C6 as stated fails: with [length = 0] and [radius = -1] the empty batch
    raises numpy's [ValueError], not a [ConfigurationError]; and with
    [radius = 0] the call returns a matrix for [["C"]]. *)
Lemma transform_nonpositive_no_ConfigurationError :
  ~ (exists e h',
       MorganFingerprintTransformer.transform (lib := Chains.rdkit) 0%nat []
         (MorganFingerprintTransformer.new (Some 0) (Some (-1)) []).2
       = (Raised e, h') /\
       exn_class e = "ConfigurationError") /\
  exists a h',
    MorganFingerprintTransformer.transform (lib := Chains.rdkit) 0%nat ["C"]
      (MorganFingerprintTransformer.new (Some 4) (Some 0) []).2
    = (Returned a, h').
Proof.
  split.
  - intros (e & h' & Hrun & Hclass). vm_compute in Hrun.
    injection Hrun as <- _. discriminate Hclass.
  - eexists _, _. vm_compute. reflexivity.
Qed.

Lemma array_at_preserved {A} (m : M A) h l a :
  preserves m -> array_at h l = Some a -> array_at (m h).2 l = Some a.
Proof.
  intros Hm Ha. destruct (Hm h) as [added ->]. by apply array_at_app.
Qed.

Lemma configured_preserved {A} (m : M A) h self L R :
  preserves m -> configured h self L R -> configured (m h).2 self L R.
Proof.
  intros Hm Hcfg. destruct (Hm h) as [added ->]. by apply configured_app.
Qed.

(** C7. [transform] changes no object of the store, whether it returns or
    raises: the transformer's [__dict__], with [length] and [radius], and
    every array returned earlier are after the call what they were before.
    When [length] is set to [L2] between two calls, the matrix of the first
    call keeps its shape [(N, L)] and its contents, and a matrix returned by
    the second call has width [L2]. *)
Theorem transform_configuration_isolation `{lib : RDKit} {spec : RDKitSpec lib}
    (h : heap) (self : loc) (L R : Z) (X : list string) (a1 : loc) (h1 : heap)
    (L2 : Z) (h1' : heap) (X2 : list string) (r2 : outcome loc) (h2 : heap) :
  configured h self L R ->
  MorganFingerprintTransformer.transform self X h = (Returned a1, h1) ->
  setattr self "length" L2 h1 = (Returned tt, h1') ->
  MorganFingerprintTransformer.transform self X2 h1' = (r2, h2) ->
  (forall self' X' (h0 : heap) l o,
     h0 !! l = Some o ->
     (MorganFingerprintTransformer.transform self' X' h0).2 !! l = Some o) /\
  configured h1 self L R /\
  configured h2 self L2 R /\
  exists A1,
    array_at h1 a1 = Some A1 /\
    shape A1 = [List.length X; Z.to_nat L] /\
    array_at h1' a1 = Some A1 /\
    array_at h2 a1 = Some A1 /\
    match r2 with
    | Returned a2 =>
        exists A2, array_at h2 a2 = Some A2 /\
                   shape A2 = [List.length X2; Z.to_nat L2]
    | Raised _ => True
    end.
Proof.
  intros Hcfg Hrun1 Hset Hrun2.
  split. { intros self' X' h0 l o. apply preserves_lookup, preserves_transform. }
  assert (configured h1 self L R) as Hcfg1.
  { pose proof (configured_preserved _ h self L R (preserves_transform self X) Hcfg) as H.
    by rewrite Hrun1 in H. }
  destruct (setattr_length_run h1 self L R L2 h1' Hcfg1 Hset) as [Hcfg1' Harr].
  assert (configured h2 self L2 R) as Hcfg2.
  { pose proof (configured_preserved _ h1' self L2 R (preserves_transform self X2) Hcfg1') as H.
    by rewrite Hrun2 in H. }
  destruct (transform_returned X h self L R a1 h1 Hcfg Hrun1) as (_ & _ & Ha1).
  split; [done|]. split; [done|].
  eexists. split; [exact Ha1|]. split; [done|].
  split; [by apply Harr|]. split.
  - pose proof (array_at_preserved _ h1' a1 _ (preserves_transform self X2)
                  (Harr _ _ Ha1)) as H.
    by rewrite Hrun2 in H.
  - destruct r2 as [e2|a2]; [done|].
    destruct (transform_returned X2 h1' self L2 R a2 h2 Hcfg1' Hrun2) as (_ & _ & Ha2).
    eexists. split; [exact Ha2|done].
Qed.

Lemma transform_configuration_isolation_witness :
  let h1 := (MorganFingerprintTransformer.transform (lib := Chains.rdkit) 0%nat
               ["C"] store_m).2 in
  let h1' := (setattr 0%nat "length" 2 h1).2 in
  let run2 := MorganFingerprintTransformer.transform (lib := Chains.rdkit) 0%nat
                ["C"; "N"] h1' in
  configured store_m 0%nat 4 4 /\
  MorganFingerprintTransformer.transform (lib := Chains.rdkit) 0%nat ["C"] store_m
  = (Returned 2%nat, h1) /\
  setattr 0%nat "length" 2 h1 = (Returned tt, h1') /\
  (forall self' X' (h0 : heap) l o,
     h0 !! l = Some o ->
     (MorganFingerprintTransformer.transform (lib := Chains.rdkit) self' X' h0).2 !! l
     = Some o) /\
  configured h1 0%nat 4 4 /\
  configured run2.2 0%nat 2 4 /\
  exists A1,
    array_at h1 2%nat = Some A1 /\
    shape A1 = [List.length ["C"]; Z.to_nat 4] /\
    array_at h1' 2%nat = Some A1 /\
    array_at run2.2 2%nat = Some A1 /\
    match run2.1 with
    | Returned a2 =>
        exists A2, array_at run2.2 a2 = Some A2 /\
                   shape A2 = [List.length ["C"; "N"]; Z.to_nat 2]
    | Raised _ => True
    end.
Proof.
  intros h1 h1' run2.
  split; [read_configuration|].
  split; [vm_compute; reflexivity|].
  split; [vm_compute; reflexivity|].
  apply (transform_configuration_isolation (lib := Chains.rdkit) (spec := Chains_spec)
           store_m 0%nat 4 4 ["C"] 2%nat h1 2 h1' ["C"; "N"] run2.1 run2.2).
  - read_configuration.
  - vm_compute; reflexivity.
  - vm_compute; reflexivity.
  - vm_compute; reflexivity.
Defined.

(** C8. With [length = 4] and [radius = 4], methane's fingerprint has four
    bits: [compute_morgan_fingerprints('C', 4, 4)] returns an array of shape
    [(4,)], and [m.transform(['C'])] on [m = MorganFingerprintTransformer(4,
    4)] returns, both times it is called, the [(1, 4)] matrix of these four
    bits. *)
Theorem transform_methane_twice `{lib : RDKit} {spec : RDKitSpec lib}
    (mol : Mol) (bv : ExplicitBitVect) (h0 : heap) :
  MolFromSmiles "C" = Some mol ->
  getFingerprintAsBitVect mol 4 4 = Returned bv ->
  List.length bv = 4%nat /\
  (exists l hl,
     compute_morgan_fingerprints "C" 4 4 h0 = (Returned l, hl) /\
     array_at hl l = Some (Ndarray [4%nat] bv)) /\
  exists h a1 h1 a2 h2,
    MorganFingerprintTransformer.new (Some 4) (Some 4) h0
    = (Returned (List.length h0), h) /\
    MorganFingerprintTransformer.transform (List.length h0) ["C"] h
    = (Returned a1, h1) /\
    MorganFingerprintTransformer.transform (List.length h0) ["C"] h1
    = (Returned a2, h2) /\
    array_at h1 a1 = Some (Ndarray [1%nat; 4%nat] bv) /\
    array_at h2 a2 = Some (Ndarray [1%nat; 4%nat] bv).
Proof.
  intros Hmol Hbv.
  assert (List.length bv = 4%nat) as Hlen.
  { apply getFingerprintAsBitVect_numBits in Hbv. lia. }
  assert (fingerprint_of 4 4 "C" = Returned bv) as Hfp.
  { unfold fingerprint_of. by rewrite Hmol. }
  split; [done|]. split.
  - rewrite compute_morgan_fingerprints_run. unfold fingerprint_of in Hfp.
    rewrite Hfp. eexists _, _. split; [done|].
    rewrite array_at_alloc. unfold fingerprint_array. by rewrite Hlen.
  - destruct (transform_singleton_twice _ _ 4 4 "C" bv (configured_new h0 4 4) Hfp)
      as (a1 & h1 & a2 & h2 & H1 & H2 & H3 & H4 & _).
    rewrite Hlen in H3, H4.
    eexists _, a1, h1, a2, h2. split; [apply new_run|]. done.
Qed.

Lemma transform_methane_twice_witness :
  MolFromSmiles (RDKit := Chains.rdkit) "C" = Some ["C"%char] /\
  getFingerprintAsBitVect (RDKit := Chains.rdkit) ["C"%char] 4 4
  = Returned [false; false; false; true] /\
  List.length [false; false; false; true] = 4%nat /\
  (exists l hl,
     compute_morgan_fingerprints (lib := Chains.rdkit) "C" 4 4 [] = (Returned l, hl) /\
     array_at hl l = Some (Ndarray [4%nat] [false; false; false; true])) /\
  exists h a1 h1 a2 h2,
    MorganFingerprintTransformer.new (Some 4) (Some 4) []
    = (Returned (List.length (@nil obj)), h) /\
    MorganFingerprintTransformer.transform (lib := Chains.rdkit)
      (List.length (@nil obj)) ["C"] h = (Returned a1, h1) /\
    MorganFingerprintTransformer.transform (lib := Chains.rdkit)
      (List.length (@nil obj)) ["C"] h1 = (Returned a2, h2) /\
    array_at h1 a1 = Some (Ndarray [1%nat; 4%nat] [false; false; false; true]) /\
    array_at h2 a2 = Some (Ndarray [1%nat; 4%nat] [false; false; false; true]).
Proof.
  split; [reflexivity|]. split; [vm_compute; reflexivity|].
  apply (transform_methane_twice (lib := Chains.rdkit) (spec := Chains_spec)
           ["C"%char] [false; false; false; true] []).
  - reflexivity.
  - vm_compute; reflexivity.
Defined.

(** ** Further properties of the notebook's functions *)

Lemma fingerprints_app `{lib : RDKit} L R X Y :
  Forall (valid L R) X ->
  fingerprints L R (X ++ Y)
  = ((fingerprints L R X).1 ++ (fingerprints L R Y).1, (fingerprints L R Y).2).
Proof.
  induction 1 as [|m X [bv Hbv] _ IH]; cbn [app].
  - by destruct (fingerprints L R Y).
  - rewrite !(fingerprints_cons_returned _ _ _ _ _ Hbv), IH. done.
Qed.

(** X1. [compute_morgan_fingerprints] has two outcomes.  When the
    fingerprint call raises, the exception is passed on and the store is
    left as it was: the placeholder array is not yet allocated.  When it
    returns, the result is a new reference (nothing was stored under it
    before) to a one-dimensional array of [fingerprint_length] items, the
    bits of the fingerprint: the one-item placeholder of [np.zeros((1,))]
    has been resized, and no other object has changed. *)
Theorem compute_morgan_fingerprints_outcome `{lib : RDKit} {spec : RDKitSpec lib}
    (smiles : string) (L R : Z) (h : heap) :
  match fingerprint_of L R smiles with
  | Raised e => compute_morgan_fingerprints smiles L R h = (Raised e, h)
  | Returned bv =>
      compute_morgan_fingerprints smiles L R h
      = (Returned (List.length h), h ++ [Obj_ndarray (Ndarray [Z.to_nat L] bv)]) /\
      List.length bv = Z.to_nat L /\
      h !! List.length h = None
  end.
Proof.
  rewrite compute_morgan_fingerprints_run. unfold fingerprint_of.
  destruct (AllChem.GetMorganFingerprintAsBitVect _ _ _) as [e|bv] eqn:Hbv; [done|].
  assert (List.length bv = Z.to_nat L) as Hlen.
  { unfold AllChem.GetMorganFingerprintAsBitVect in Hbv.
    destruct (MolFromSmiles smiles) as [mol|]; [|done].
    apply getFingerprintAsBitVect_numBits in Hbv. lia. }
  split; [|split; [done|]].
  - unfold fingerprint_array. by rewrite Hlen.
  - by apply lookup_ge_None.
Qed.

Lemma compute_morgan_fingerprints_outcome_witness :
  (compute_morgan_fingerprints (lib := Chains.rdkit) "CO" 4 4 store_m
   = (Returned (List.length store_m),
      store_m ++ [Obj_ndarray (Ndarray [Z.to_nat 4] [false; false; false; true])]) /\
   List.length [false; false; false; true] = Z.to_nat 4 /\
   store_m !! List.length store_m = None) /\
  compute_morgan_fingerprints (lib := Chains.rdkit) "not-a-valid-identifier" 4 4 store_m
  = (Raised ArgumentError, store_m).
Proof.
  split.
  - apply (compute_morgan_fingerprints_outcome (lib := Chains.rdkit)
             (spec := Chains_spec) "CO" 4 4 store_m).
  - apply (compute_morgan_fingerprints_outcome (lib := Chains.rdkit)
             (spec := Chains_spec) "not-a-valid-identifier" 4 4 store_m).
Defined.

(** X2. The elements are converted from left to right and the first
    exception ends the call: when the elements before [m] are valid and the
    fingerprint call for [m] raises [e], [transform] raises [e] and leaves
    the same store whatever follows [m] in the batch.  The elements after
    the first failing one play no part, even if they would fail otherwise. *)
Theorem transform_first_failure `{lib : RDKit}
    (h : heap) (self : loc) (L R : Z) (pre : list string) (m : string) (e : exn) :
  configured h self L R ->
  Forall (valid L R) pre ->
  fingerprint_of L R m = Raised e ->
  exists h', forall post,
    MorganFingerprintTransformer.transform self (pre ++ m :: post) h = (Raised e, h').
Proof.
  intros Hcfg Hpre Hm.
  exists (h ++ map (fun bv => Obj_ndarray (fingerprint_array bv)) (fingerprints L R pre).1).
  intros post. rewrite (transform_run _ h self L R Hcfg). cbn zeta.
  rewrite (fingerprints_app L R pre (m :: post) Hpre).
  rewrite (fingerprints_cons_raised L R m post e Hm). cbn [fst snd].
  by rewrite app_nil_r.
Qed.

Lemma transform_first_failure_witness :
  configured store_m 0%nat 4 4 /\
  Forall (valid (lib := Chains.rdkit) 4 4) ["C"; "N"] /\
  fingerprint_of (lib := Chains.rdkit) 4 4 "not-a-valid-identifier" = Raised ArgumentError /\
  exists h', forall post,
    MorganFingerprintTransformer.transform (lib := Chains.rdkit) 0%nat
      (["C"; "N"] ++ "not-a-valid-identifier" :: post) store_m = (Raised ArgumentError, h').
Proof.
  assert (Forall (valid (lib := Chains.rdkit) 4 4) ["C"; "N"]) as Hvalid.
  { repeat constructor; eexists; vm_compute; reflexivity. }
  split; [read_configuration|]. split; [exact Hvalid|]. split; [reflexivity|].
  apply (transform_first_failure (lib := Chains.rdkit) store_m 0%nat 4 4
           ["C"; "N"] "not-a-valid-identifier" ArgumentError).
  - read_configuration.
  - exact Hvalid.
  - reflexivity.
Defined.

(** X3. The outcome of [transform] depends on the batch and on the
    [length] and [radius] of the instance, and on nothing else in the store:
    two instances with the same configuration, in any two stores, raise the
    same exception or return matrices of the same shape and bits.  Calls
    made before, matrices returned before and other attributes of the
    instance make no difference. *)
Theorem transform_store_independent `{lib : RDKit}
    (h h' : heap) (self self' : loc) (L R : Z) (X : list string)
    (r1 r2 : outcome loc) (h1 h2 : heap) :
  configured h self L R ->
  configured h' self' L R ->
  MorganFingerprintTransformer.transform self X h = (r1, h1) ->
  MorganFingerprintTransformer.transform self' X h' = (r2, h2) ->
  match r1, r2 with
  | Raised e1, Raised e2 => e1 = e2
  | Returned a1, Returned a2 =>
      exists A, array_at h1 a1 = Some A /\ array_at h2 a2 = Some A
  | _, _ => False
  end.
Proof.
  intros Hcfg Hcfg' Hrun1 Hrun2.
  rewrite (transform_run X h self L R Hcfg) in Hrun1.
  rewrite (transform_run X h' self' L R Hcfg') in Hrun2.
  cbn zeta in Hrun1, Hrun2.
  destruct ((fingerprints L R X).2) as [e|]; [by simplify_eq|].
  destruct (np.concatenate _) as [e|A]; [by simplify_eq|].
  simplify_eq. exists A. split; apply array_at_alloc.
Qed.

Lemma transform_store_independent_witness :
  let h' := (MorganFingerprintTransformer.new (Some 4) (Some 4)
               (MorganFingerprintTransformer.transform (lib := Chains.rdkit) 0%nat
                  ["N"] store_m).2).2 in
  let run1 := MorganFingerprintTransformer.transform (lib := Chains.rdkit) 0%nat
                ["C"; "CO"] store_m in
  let run2 := MorganFingerprintTransformer.transform (lib := Chains.rdkit) 3%nat
                ["C"; "CO"] h' in
  configured store_m 0%nat 4 4 /\
  configured h' 3%nat 4 4 /\
  match run1.1, run2.1 with
  | Raised e1, Raised e2 => e1 = e2
  | Returned a1, Returned a2 =>
      exists A, array_at run1.2 a1 = Some A /\ array_at run2.2 a2 = Some A
  | _, _ => False
  end.
Proof.
  intros h' run1 run2.
  split; [read_configuration|]. split; [read_configuration|].
  apply (transform_store_independent (lib := Chains.rdkit) store_m h' 0%nat 3%nat 4 4
           ["C"; "CO"] run1.1 run2.1 run1.2 run2.2).
  - read_configuration.
  - read_configuration.
  - vm_compute; reflexivity.
  - vm_compute; reflexivity.
Defined.

Lemma asarray_at h l A :
  array_at h l = Some A -> np.asarray l h = (Returned A, h).
Proof.
  unfold array_at, np.asarray, bind, deref.
  destruct (h !! l) as [[dict|A']|]; [done| |done]. by intros [= ->].
Qed.

Lemma vstack_two h a b A B :
  array_at h a = Some A -> array_at h b = Some B ->
  np.vstack [a; b] h
  = match np.concatenate [np.atleast_2d A; np.atleast_2d B] with
    | Raised e => (Raised e, h)
    | Returned C => (Returned (List.length h), h ++ [Obj_ndarray C])
    end.
Proof.
  intros HA HB. unfold np.vstack. cbn [list_comprehension].
  unfold bind. rewrite (asarray_at h a A HA), (asarray_at h b B HB).
  cbn [ret map]. by destruct (np.concatenate _).
Qed.

(** X4. Converting a batch in two parts gives the same rows as converting
    it at once: for two batches of valid identifiers, neither empty, the
    matrix of [X ++ Y] has [N_X + N_Y] rows, its buffer is the buffer of the
    matrix of [X] followed by that of [Y], and it is what [np.vstack]
    returns for the two matrices. *)
Theorem transform_app `{lib : RDKit} {spec : RDKitSpec lib}
    (h : heap) (self : loc) (L R : Z) (X Y : list string) :
  configured h self L R ->
  X ≠ [] -> Y ≠ [] ->
  Forall (valid L R) X -> Forall (valid L R) Y ->
  exists a ha b hb c hc d hd A B C,
    MorganFingerprintTransformer.transform self X h = (Returned a, ha) /\
    MorganFingerprintTransformer.transform self Y ha = (Returned b, hb) /\
    MorganFingerprintTransformer.transform self (X ++ Y) hb = (Returned c, hc) /\
    np.vstack [a; b] hc = (Returned d, hd) /\
    array_at hc a = Some A /\ array_at hc b = Some B /\ array_at hc c = Some C /\
    array_at hd d = Some C /\
    shape C = [(List.length X + List.length Y)%nat; Z.to_nat L] /\
    data C = data A ++ data B.
Proof.
  intros Hcfg HX HY HvX HvY.
  destruct (transform_valid X h self L R Hcfg HX HvX) as (a & ha & Ha & HA).
  assert (configured ha self L R) as Hcfga.
  { pose proof (configured_preserved _ h self L R (preserves_transform self X) Hcfg) as H.
    by rewrite Ha in H. }
  destruct (transform_valid Y ha self L R Hcfga HY HvY) as (b & hb & Hb & HB).
  assert (configured hb self L R) as Hcfgb.
  { pose proof (configured_preserved _ ha self L R (preserves_transform self Y) Hcfga) as H.
    by rewrite Hb in H. }
  assert (X ++ Y ≠ []) as HXY by (by destruct X).
  assert (Forall (valid L R) (X ++ Y)) as HvXY by (by apply Forall_app).
  destruct (transform_valid (X ++ Y) hb self L R Hcfgb HXY HvXY) as (c & hc & Hc & HC).
  assert (array_at hb a = Some (Ndarray [List.length X; Z.to_nat L]
                                  (concat (fingerprints L R X).1))) as HA'.
  { pose proof (array_at_preserved _ ha a _ (preserves_transform self Y) HA) as H.
    by rewrite Hb in H. }
  assert (array_at hc a = Some (Ndarray [List.length X; Z.to_nat L]
                                  (concat (fingerprints L R X).1))) as HA''.
  { pose proof (array_at_preserved _ hb a _ (preserves_transform self (X ++ Y)) HA') as H.
    by rewrite Hc in H. }
  assert (array_at hc b = Some (Ndarray [List.length Y; Z.to_nat L]
                                  (concat (fingerprints L R Y).1))) as HB'.
  { pose proof (array_at_preserved _ hb b _ (preserves_transform self (X ++ Y)) HB) as H.
    by rewrite Hc in H. }
  assert (concat (fingerprints L R (X ++ Y)).1
          = concat (fingerprints L R X).1 ++ concat (fingerprints L R Y).1) as Hdata.
  { rewrite (fingerprints_app L R X Y HvX). cbn [fst]. apply concat_app. }
  rewrite length_app, Hdata in HC.
  eexists a, ha, b, hb, c, hc, (List.length hc), _, _, _, _.
  split; [done|]. split; [done|]. split; [done|].
  split; [|split; [exact HA''|split; [exact HB'|split; [exact HC|]]]].
  - rewrite (vstack_two hc a b _ _ HA'' HB').
    cbn. rewrite bool_decide_true by done. reflexivity.
  - split; [|done]. rewrite array_at_alloc. do 2 f_equal.
    + cbn. f_equal. lia.
    + cbn. by rewrite app_nil_r.
Qed.

Lemma transform_app_witness :
  configured store_m 0%nat 4 4 /\
  ["C"; "N"] ≠ [] /\ ["CO"] ≠ [] /\
  Forall (valid (lib := Chains.rdkit) 4 4) ["C"; "N"] /\
  Forall (valid (lib := Chains.rdkit) 4 4) ["CO"] /\
  exists a ha b hb c hc d hd A B C,
    MorganFingerprintTransformer.transform (lib := Chains.rdkit) 0%nat ["C"; "N"] store_m
    = (Returned a, ha) /\
    MorganFingerprintTransformer.transform (lib := Chains.rdkit) 0%nat ["CO"] ha
    = (Returned b, hb) /\
    MorganFingerprintTransformer.transform (lib := Chains.rdkit) 0%nat
      (["C"; "N"] ++ ["CO"]) hb = (Returned c, hc) /\
    np.vstack [a; b] hc = (Returned d, hd) /\
    array_at hc a = Some A /\ array_at hc b = Some B /\ array_at hc c = Some C /\
    array_at hd d = Some C /\
    shape C = [(List.length ["C"; "N"] + List.length ["CO"])%nat; Z.to_nat 4] /\
    data C = data A ++ data B.
Proof.
  assert (Forall (valid (lib := Chains.rdkit) 4 4) ["C"; "N"]) as HvX.
  { repeat constructor; eexists; vm_compute; reflexivity. }
  assert (Forall (valid (lib := Chains.rdkit) 4 4) ["CO"]) as HvY.
  { repeat constructor; eexists; vm_compute; reflexivity. }
  split; [read_configuration|]. split; [discriminate|]. split; [discriminate|].
  split; [exact HvX|]. split; [exact HvY|].
  apply (transform_app (lib := Chains.rdkit) (spec := Chains_spec) store_m 0%nat 4 4
           ["C"; "N"] ["CO"]).
  - read_configuration.
  - discriminate.
  - discriminate.
  - exact HvX.
  - exact HvY.
Defined.

Lemma transform_returned_at `{lib : RDKit} h self L R X a h' :
  configured h self L R ->
  MorganFingerprintTransformer.transform self X h = (Returned a, h') ->
  (List.length h <= a)%nat /\ is_Some (h' !! a).
Proof.
  intros Hcfg Hrun. rewrite (transform_run X h self L R Hcfg) in Hrun.
  cbn zeta in Hrun.
  destruct ((fingerprints L R X).2) as [e|]; [done|].
  destruct (np.concatenate _) as [e|A]; [done|].
  injection Hrun as <- <-. split.
  - rewrite length_app. lia.
  - rewrite list_lookup_middle by done. eauto.
Qed.

(** X5. A matrix returned by [transform] is a new object each time: its
    reference was not in use before the call, it is not the transformer,
    and a later call returns another reference.  Nothing is cached, and the
    caller may change a returned matrix without reaching the transformer or
    another result. *)
Theorem transform_returns_fresh `{lib : RDKit}
    (h : heap) (self : loc) (L R : Z) (X Y : list string)
    (a1 a2 : loc) (h1 h2 : heap) :
  configured h self L R ->
  MorganFingerprintTransformer.transform self X h = (Returned a1, h1) ->
  MorganFingerprintTransformer.transform self Y h1 = (Returned a2, h2) ->
  h !! a1 = None /\ h1 !! a2 = None /\ a1 ≠ a2 /\ a1 ≠ self /\ a2 ≠ self.
Proof.
  intros Hcfg Hrun1 Hrun2.
  assert (configured h1 self L R) as Hcfg1.
  { pose proof (configured_preserved _ h self L R (preserves_transform self X) Hcfg) as H.
    by rewrite Hrun1 in H. }
  destruct (transform_returned_at h self L R X a1 h1 Hcfg Hrun1) as [Hge1 [o1 Ho1]].
  destruct (transform_returned_at h1 self L R Y a2 h2 Hcfg1 Hrun2) as [Hge2 _].
  assert (h !! a1 = None) as Hnew1 by (by apply lookup_ge_None).
  assert (h1 !! a2 = None) as Hnew2 by (by apply lookup_ge_None).
  destruct Hcfg as (dict & Hself & _). destruct Hcfg1 as (dict1 & Hself1 & _).
  repeat split; [done | done | | |]; intros ->; congruence.
Qed.

Lemma transform_returns_fresh_witness :
  let run1 := MorganFingerprintTransformer.transform (lib := Chains.rdkit) 0%nat
                ["C"] store_m in
  let run2 := MorganFingerprintTransformer.transform (lib := Chains.rdkit) 0%nat
                ["C"] run1.2 in
  configured store_m 0%nat 4 4 /\
  run1 = (Returned 2%nat, run1.2) /\
  run2 = (Returned 4%nat, run2.2) /\
  store_m !! 2%nat = None /\ run1.2 !! 4%nat = None /\
  2%nat ≠ 4%nat /\ 2%nat ≠ 0%nat /\ 4%nat ≠ 0%nat.
Proof.
  intros run1 run2.
  split; [read_configuration|].
  split; [vm_compute; reflexivity|]. split; [vm_compute; reflexivity|].
  apply (transform_returns_fresh (lib := Chains.rdkit) store_m 0%nat 4 4 ["C"] ["C"]
           2%nat 4%nat run1.2 run2.2).
  - read_configuration.
  - vm_compute; reflexivity.
  - vm_compute; reflexivity.
Defined.

(** X6. [transform] reads [self.length] and [self.radius] before it decodes
    an element.  On an instance that lacks one of the two attributes, a
    batch that is not empty raises [AttributeError] whatever its first
    identifier is, valid or not, and the store is left as it was. *)
Theorem transform_missing_attribute `{lib : RDKit}
    (h : heap) (self : loc) (dict : gmap string Z) (m : string) (X : list string) :
  h !! self = Some (Obj_instance dict) ->
  dict !! "length" = None \/ dict !! "radius" = None ->
  exists e,
    MorganFingerprintTransformer.transform self (m :: X) h = (Raised e, h) /\
    exn_class e = "AttributeError".
Proof.
  intros Hself Hmissing.
  unfold MorganFingerprintTransformer.transform. cbn [list_comprehension].
  unfold bind at 1. unfold bind at 1. unfold bind at 1.
  unfold getattr at 1, bind at 1, deref. rewrite Hself.
  destruct (dict !! "length") as [v|] eqn:HL.
  - destruct Hmissing as [|HR]; [done|]. cbn [ret].
    unfold bind at 1. unfold getattr, bind, deref. rewrite Hself, HR.
    by eexists.
  - by eexists.
Qed.

Lemma transform_missing_attribute_witness :
  [Obj_instance ∅] !! 0%nat = Some (Obj_instance ∅) /\
  ((∅ : gmap string Z) !! "length" = None \/ (∅ : gmap string Z) !! "radius" = None) /\
  exists e,
    MorganFingerprintTransformer.transform (lib := Chains.rdkit) 0%nat
      ("not-a-valid-identifier" :: ["C"]) [Obj_instance ∅]
    = (Raised e, [Obj_instance ∅]) /\
    exn_class e = "AttributeError".
Proof.
  split; [reflexivity|]. split; [left; reflexivity|].
  apply (transform_missing_attribute (lib := Chains.rdkit) [Obj_instance ∅] 0%nat ∅
           "not-a-valid-identifier" ["C"]).
  - reflexivity.
  - left; reflexivity.
Defined.

(** X7. [length] and [radius] are attributes of the instance, set by
    [__init__]: two transformers built one after the other are different
    objects, an argument left out takes its default, and assigning
    [length] on the first changes neither the second nor any object that
    existed before. *)
Theorem instances_do_not_share_configuration
    (length1 radius1 length2 radius2 : option Z) (v : Z) (h0 : heap) :
  exists m1 h1 m2 h2 h3,
    MorganFingerprintTransformer.new length1 radius1 h0 = (Returned m1, h1) /\
    MorganFingerprintTransformer.new length2 radius2 h1 = (Returned m2, h2) /\
    setattr m1 "length" v h2 = (Returned tt, h3) /\
    m1 ≠ m2 /\
    configured h2 m1 (default 256 length1) (default 4 radius1) /\
    configured h3 m1 v (default 4 radius1) /\
    configured h3 m2 (default 256 length2) (default 4 radius2) /\
    forall l o, h0 !! l = Some o -> h3 !! l = Some o.
Proof.
  set (d1 := <["radius" := default 4 radius1]>
               (<["length" := default 256 length1]> (∅ : gmap string Z))).
  set (d2 := <["radius" := default 4 radius2]>
               (<["length" := default 256 length2]> (∅ : gmap string Z))).
  set (h1 := h0 ++ [Obj_instance d1]). set (h2 := h1 ++ [Obj_instance d2]).
  assert (h2 !! List.length h0 = Some (Obj_instance d1)) as Hself1.
  { apply lookup_app_l_Some. by apply list_lookup_middle. }
  assert (h2 !! List.length h1 = Some (Obj_instance d2)) as Hself2.
  { by apply list_lookup_middle. }
  assert (List.length h0 ≠ List.length h1) as Hne.
  { unfold h1. rewrite length_app. cbn. lia. }
  exists (List.length h0), h1, (List.length h1), h2,
         (<[List.length h0 := Obj_instance (<["length" := v]> d1)]> h2).
  split; [apply new_run|]. split; [apply new_run|]. split.
  { unfold setattr, bind, deref, store. by rewrite Hself1. }
  split; [exact Hne|]. split; [|split; [|split]].
  - exists d1. split; [done|]. unfold d1. split.
    + rewrite lookup_insert_ne by done. by rewrite lookup_insert_eq.
    + by rewrite lookup_insert_eq.
  - exists (<["length" := v]> d1). split; [|split].
    + apply list_lookup_insert_eq. by eapply lookup_lt_Some.
    + by rewrite lookup_insert_eq.
    + rewrite lookup_insert_ne by done. unfold d1. by rewrite lookup_insert_eq.
  - exists d2. split.
    + by rewrite list_lookup_insert_ne.
    + unfold d2. split.
      * rewrite lookup_insert_ne by done. by rewrite lookup_insert_eq.
      * by rewrite lookup_insert_eq.
  - intros l o Hl. rewrite list_lookup_insert_ne.
    + unfold h2, h1. rewrite <- app_assoc. by apply lookup_app_l_Some.
    + intros <-. apply lookup_lt_Some in Hl. lia.
Qed.
